(** * SynPlanner, [synplan/mcts/node.py]: the search-tree node

  A shallow embedding of the class [Node] and of the fragment of the Python
  runtime its four methods touch: the instance dictionary, attribute
  reads and writes, the builtins [len], [x[i]], [x[i:]], [tuple()] and the
  formatting an f-string applies to a field. *)

From Stdlib Require Import Ascii.
From stdpp Require Import gmap strings list pretty.

Set Warnings "-register-all".

Local Open Scope Z_scope.

(** ** Python values and exceptions *)

(** The values that can flow through [Node]: [None] (the default of both
  constructor parameters), integers, strings (a molecule identifier such
  as a SMILES string; a [str] is the sequence of its code points, here
  below 256) and tuples, the annotated type of both parameters. *)
Inductive pyval : Type :=
  | PyNone
  | PyInt (z : Z)
  | PyStr (s : string)
  | PyTuple (items : list pyval).

Inductive pyexc : Type :=
  | TypeError
  | IndexError
  | AttributeError.

Inductive result (A : Type) : Type :=
  | Ok (a : A)
  | Raise (e : pyexc).

Arguments Ok {A} a.
Arguments Raise {A} e.

(** What a method call returns to its caller, the instance left aside. *)
Definition value {A B} (r : result (A * B)) : result A :=
  match r with Ok (a, _) => Ok a | Raise e => Raise e end.

(** ** Builtins *)

Module Py.

Definition str_items (s : string) : list ascii := String.list_ascii_of_string s.

(** [len(v)] *)
Definition len (v : pyval) : result Z :=
  match v with
  | PyTuple items => Ok (Z.of_nat (length items))
  | PyStr s => Ok (Z.of_nat (String.length s))
  | PyNone | PyInt _ => Raise TypeError
  end.

(** Position in a sequence of length [n] that the index [i] denotes:
    a negative index counts from the end. *)
Definition index (n i : Z) : option nat :=
  let j := if i <? 0 then n + i else i in
  if (0 <=? j) && (j <? n) then Some (Z.to_nat j) else None.

(** [v[i]] *)
Definition getitem (v : pyval) (i : Z) : result pyval :=
  match v with
  | PyTuple items =>
      match index (Z.of_nat (length items)) i ≫= (items !!.) with
      | Some x => Ok x
      | None => Raise IndexError
      end
  | PyStr s =>
      match index (Z.of_nat (String.length s)) i ≫= (str_items s !!.) with
      | Some c => Ok (PyStr (String c EmptyString))
      | None => Raise IndexError
      end
  | PyNone | PyInt _ => Raise TypeError
  end.

(** Start of the slice [[i:]] of a sequence of length [n], clamped to
    [0..n]. *)
Definition slice_start (n i : Z) : nat :=
  let j := if i <? 0 then n + i else i in
  Z.to_nat (Z.min n (Z.max 0 j)).

(** [v[i:]] *)
Definition slice_from (v : pyval) (i : Z) : result pyval :=
  match v with
  | PyTuple items =>
      Ok (PyTuple (drop (slice_start (Z.of_nat (length items)) i) items))
  | PyStr s =>
      Ok (PyStr (String.string_of_list_ascii
                   (drop (slice_start (Z.of_nat (String.length s)) i)
                         (str_items s))))
  | PyNone | PyInt _ => Raise TypeError
  end.

(** [a + b] on sequences *)
Definition add (a b : pyval) : result pyval :=
  match a, b with
  | PyTuple x, PyTuple y => Ok (PyTuple (x ++ y))
  | PyStr x, PyStr y => Ok (PyStr (x +:+ y))
  | PyInt x, PyInt y => Ok (PyInt (x + y))
  | _, _ => Raise TypeError
  end.

(** [tuple()] *)
Definition tuple : pyval := PyTuple [].

(** *** [repr] and [str] *)

Definition squote : ascii := "039"%char.
Definition dquote : ascii := "034"%char.
Definition backslash : ascii := "092"%char.
Definition newline : string := String "010"%char EmptyString.

Definition hex_digit (n : N) : ascii :=
  default "0"%char (String.get (N.to_nat n) "0123456789abcdef").

Definition hex_escape (c : ascii) : string :=
  let n := N_of_ascii c in
  String backslash
    (String "x" (String (hex_digit (n / 16))
                   (String (hex_digit (n mod 16)) EmptyString))).

Definition printable (c : ascii) : bool :=
  let n := N_of_ascii c in
  ((32 <=? n) && (n <? 127) || (161 <=? n) && negb (n =? 173))%N.

Definition repr_char (quote c : ascii) : string :=
  if Ascii.eqb c quote || Ascii.eqb c backslash
  then String backslash (String c EmptyString)
  else if Ascii.eqb c "009" then String backslash "t"
  else if Ascii.eqb c "010" then String backslash "n"
  else if Ascii.eqb c "013" then String backslash "r"
  else if printable c then String c EmptyString
  else hex_escape c.

Definition contains (c : ascii) (s : string) : bool :=
  existsb (Ascii.eqb c) (str_items s).

Definition str_quote (s : string) : ascii :=
  if contains squote s && negb (contains dquote s) then dquote else squote.

Fixpoint escape (quote : ascii) (s : string) : string :=
  match s with
  | EmptyString => EmptyString
  | String c r => repr_char quote c +:+ escape quote r
  end.

Definition str_repr (s : string) : string :=
  let q := str_quote s in
  String q (escape q s +:+ String q EmptyString).

(** [repr(v)] *)
Fixpoint repr (v : pyval) : string :=
  match v with
  | PyNone => "None"
  | PyInt z => pretty z
  | PyStr s => str_repr s
  | PyTuple items =>
      match items with
      | [x] => "(" +:+ repr x +:+ ",)"
      | _ => "(" +:+ String.concat ", " (map repr items) +:+ ")"
      end
  end.

(** [str(v)], which is also what an f-string field [{v}] inserts *)
Definition str (v : pyval) : string :=
  match v with
  | PyStr s => s
  | _ => repr v
  end.

End Py.

(** ** Method bodies: state over the instance dictionary, with exceptions *)

Abbreviation obj := (gmap string pyval).

Definition M (A : Type) : Type := obj → result (A * obj).

Global Instance M_ret : MRet M := λ A a self, Ok (a, self).

Global Instance M_bind : MBind M := λ A B f m self,
  match m self with
  | Ok (a, self') => f a self'
  | Raise e => Raise e
  end.

(** result of a builtin *)
Definition builtin {A} (r : result A) : M A := λ self,
  match r with
  | Ok a => Ok (a, self)
  | Raise e => Raise e
  end.

(** [self.name] *)
Definition getattr (name : string) : M pyval := λ self,
  match self !! name with
  | Some v => Ok (v, self)
  | None => Raise AttributeError
  end.

(** [self.name = v] *)
Definition setattr (name : string) (v : pyval) : M () := λ self,
  Ok ((), <[name := v]> self).

(** ** class Node *)

Module Node.

Definition __init__ (precursors_to_expand new_precursors : pyval) : M () :=
  setattr "precursors_to_expand" precursors_to_expand;;
  setattr "new_precursors" new_precursors;;
  p ← getattr "precursors_to_expand";
  n ← builtin (Py.len p);
  if n =? 0 then
    setattr "curr_precursor" Py.tuple
  else
    p ← getattr "precursors_to_expand";
    x ← builtin (Py.getitem p 0);
    setattr "curr_precursor" x;;
    p ← getattr "precursors_to_expand";
    t ← builtin (Py.slice_from p 1);
    setattr "next_precursor" t.

(** [Node(...)] with both arguments given: [__init__] runs on a fresh
    instance, and an exception leaves no instance. *)
Definition new (precursors_to_expand new_precursors : pyval) : result obj :=
  match __init__ precursors_to_expand new_precursors ∅ with
  | Ok (_, self) => Ok self
  | Raise e => Raise e
  end.

(** [Node(...)] where an argument may be omitted: both parameters
    default to [None]. *)
Definition call (precursors_to_expand new_precursors : option pyval)
  : result obj :=
  new (default PyNone precursors_to_expand) (default PyNone new_precursors).

Definition __len__ : M Z :=
  p ← getattr "precursors_to_expand";
  builtin (Py.len p).

Definition __repr__ : M string :=
  a ← getattr "new_precursors";
  b ← getattr "precursors_to_expand";
  mret ("New precursors: " +:+ Py.str a +:+ Py.newline
        +:+ "Precursors to expand: " +:+ Py.str b +:+ Py.newline).

Definition is_solved : M bool :=
  p ← getattr "precursors_to_expand";
  n ← builtin (Py.len p);
  mret (n =? 0).

(** [node.name] read from outside the class *)
Definition attr (name : string) (self : obj) : result pyval :=
  value (getattr name self).

End Node.


(** ** The instance [__init__] leaves behind *)

Global Instance result_ret : MRet result := λ A a, Ok a.

Global Instance result_bind : MBind result := λ A B f r,
  match r with
  | Ok a => f a
  | Raise e => Raise e
  end.

(** The two attributes every instance gets first. *)
Definition inputs (pending produced : pyval) : obj :=
  <["new_precursors" := produced]> (<["precursors_to_expand" := pending]> ∅).

(** Instance of the [if] branch. *)
Definition solved_node (pending produced : pyval) : obj :=
  <["curr_precursor" := Py.tuple]> (inputs pending produced).

(** Instance of the [else] branch. *)
Definition open_node (pending produced curr next : pyval) : obj :=
  <["next_precursor" := next]>
    (<["curr_precursor" := curr]> (inputs pending produced)).

(** Shape of every instance a constructor call returns. *)
Inductive constructed (pending produced : pyval) : obj → Prop :=
  | constructed_solved :
      Py.len pending = Ok 0 →
      constructed pending produced (solved_node pending produced)
  | constructed_open n x t :
      Py.len pending = Ok n → 0 < n →
      Py.getitem pending 0 = Ok x →
      Py.slice_from pending 1 = Ok t →
      constructed pending produced (open_node pending produced x t).

(** [repr(node)] evaluated twice in a row, both results kept. *)
Definition repr_twice : M (string * string) :=
  s1 ← Node.__repr__; s2 ← Node.__repr__; mret (s1, s2).

(** One descent of the search: a node is built from the [next_precursor]
    of another, with any produced value. *)
Definition follows (self self' : obj) : Prop :=
  ∃ next produced,
    Node.attr "next_precursor" self = Ok next ∧
    Node.new next produced = Ok self'.

(** ** Worked instances *)

Definition target : pyval := PyTuple [PyStr "Target"].
Definition route : pyval := PyTuple [PyStr "M1"; PyStr "M2"; PyStr "M3"].

(** [Node(("Target",), ())] *)
Definition root_node : obj :=
  open_node target (PyTuple []) (PyStr "Target") (PyTuple []).

(** [Node((), ("A", "B"))] *)
Definition leaf_node : obj :=
  solved_node (PyTuple []) (PyTuple [PyStr "A"; PyStr "B"]).

(** [Node(("M1", "M2", "M3"), ("X",))] *)
Definition inner_node : obj :=
  open_node route (PyTuple [PyStr "X"])
    (PyStr "M1") (PyTuple [PyStr "M2"; PyStr "M3"]).

(** ** Construction, unfolded *)

Lemma new_unfold pending produced :
  Node.new pending produced =
    n ← Py.len pending;
    if n =? 0 then Ok (solved_node pending produced)
    else
      x ← Py.getitem pending 0;
      t ← Py.slice_from pending 1;
      Ok (open_node pending produced x t).
Proof.
  unfold Node.new, Node.__init__, mbind, M_bind, result_bind, setattr, getattr.
  rewrite lookup_insert_ne by done. rewrite lookup_insert_eq.
  unfold builtin. destruct (Py.len pending) as [n|e]; [|done].
  destruct (n =? 0); [done|].
  rewrite lookup_insert_ne by done. rewrite lookup_insert_eq.
  destruct (Py.getitem pending 0) as [x|e]; [|done].
  rewrite !lookup_insert_ne by done. rewrite lookup_insert_eq.
  by destruct (Py.slice_from pending 1).
Qed.

(** ** Facts about the builtins *)

Lemma len_nonneg v n : Py.len v = Ok n → 0 ≤ n.
Proof. destruct v; simpl; intros [= <-]; lia. Qed.

Lemma len_tuple_0 items : Py.len (PyTuple items) = Ok 0 ↔ items = [].
Proof.
  simpl. split; [|by intros ->].
  intros [= H]. destruct items; [done | simpl in H; lia].
Qed.

Lemma index_0 n : 0 < n → Py.index n 0 = Some 0%nat.
Proof.
  intros Hn. unfold Py.index. simpl.
  by replace (0 <? n) with true by (symmetry; apply Z.ltb_lt; lia).
Qed.

Lemma getitem_head x items : Py.getitem (PyTuple (x :: items)) 0 = Ok x.
Proof. unfold Py.getitem. rewrite index_0; [done | simpl; lia]. Qed.

Lemma slice_start_1 n : 0 < n → Py.slice_start n 1 = 1%nat.
Proof. intros Hn. unfold Py.slice_start. simpl. lia. Qed.

Lemma slice_tail x items :
  Py.slice_from (PyTuple (x :: items)) 1 = Ok (PyTuple items).
Proof.
  unfold Py.slice_from. rewrite slice_start_1; [done | simpl; lia].
Qed.

(** Past the guard [len(p) == 0] neither [p[0]] nor [p[1:]] can raise. *)
Lemma nonempty_splits v n :
  Py.len v = Ok n → n ≠ 0 →
  ∃ x t, Py.getitem v 0 = Ok x ∧ Py.slice_from v 1 = Ok t.
Proof.
  intros Hlen Hn. destruct v as [| z | s | items]; try done.
  - destruct s as [| c s]; [by injection Hlen as <- |].
    eexists _, _. split; [|done].
    unfold Py.getitem. rewrite index_0; [done | simpl; lia].
  - destruct items as [| x items]; [by injection Hlen as <- |].
    exists x, (PyTuple items). split; [apply getitem_head | apply slice_tail].
Qed.

(** ** Facts about construction *)

Lemma new_tuple_nil produced :
  Node.new (PyTuple []) produced = Ok (solved_node (PyTuple []) produced).
Proof. by rewrite new_unfold. Qed.

Lemma new_tuple_cons x items produced :
  Node.new (PyTuple (x :: items)) produced =
    Ok (open_node (PyTuple (x :: items)) produced x (PyTuple items)).
Proof.
  rewrite new_unfold. change (Py.len _) with (Ok (Z.of_nat (length (x :: items)))).
  unfold mbind at 1, result_bind.
  replace (Z.of_nat (length (x :: items)) =? 0) with false
    by (symmetry; apply Z.eqb_neq; simpl; lia).
  by rewrite getitem_head, slice_tail.
Qed.

Lemma new_Ok_inv pending produced self :
  Node.new pending produced = Ok self → constructed pending produced self.
Proof.
  rewrite new_unfold. unfold mbind, result_bind.
  destruct (Py.len pending) as [n|] eqn:Hlen; [|done].
  destruct (n =? 0) eqn:Hn.
  - intros [= <-]. apply Z.eqb_eq in Hn as ->. by constructor.
  - apply Z.eqb_neq in Hn.
    destruct (Py.getitem pending 0) as [x|] eqn:Hx; [|done].
    destruct (Py.slice_from pending 1) as [t|] eqn:Ht; [|done].
    intros [= <-]. apply len_nonneg in Hlen as Hge.
    apply (constructed_open _ _ n); [done | lia | done | done].
Qed.

Lemma new_raises pending produced e :
  Node.new pending produced = Raise e →
  e = TypeError ∧ Py.len pending = Raise TypeError.
Proof.
  rewrite new_unfold. unfold mbind, result_bind.
  destruct (Py.len pending) as [n|e'] eqn:Hlen.
  - destruct (n =? 0) eqn:Hn; [done|]. apply Z.eqb_neq in Hn.
    destruct (nonempty_splits _ _ Hlen Hn) as (x & t & -> & ->). done.
  - intros [= <-]. by destruct pending; simplify_eq/=.
Qed.

(** Attribute reads on the two shapes. *)
Lemma inputs_pending pending produced :
  inputs pending produced !! "precursors_to_expand" = Some pending.
Proof. unfold inputs. by rewrite lookup_insert_ne, lookup_insert_eq. Qed.

Lemma inputs_produced pending produced :
  inputs pending produced !! "new_precursors" = Some produced.
Proof. unfold inputs. by rewrite lookup_insert_eq. Qed.

Lemma constructed_pending pending produced self :
  constructed pending produced self →
  self !! "precursors_to_expand" = Some pending.
Proof.
  destruct 1; unfold solved_node, open_node;
    rewrite !lookup_insert_ne by done; apply inputs_pending.
Qed.

Lemma constructed_produced pending produced self :
  constructed pending produced self →
  self !! "new_precursors" = Some produced.
Proof.
  destruct 1; unfold solved_node, open_node;
    rewrite !lookup_insert_ne by done; apply inputs_produced.
Qed.

Lemma solved_node_next pending produced :
  solved_node pending produced !! "next_precursor" = None.
Proof.
  unfold solved_node, inputs. by rewrite !lookup_insert_ne, lookup_empty.
Qed.

Lemma solved_node_curr pending produced :
  solved_node pending produced !! "curr_precursor" = Some Py.tuple.
Proof. unfold solved_node. by rewrite lookup_insert_eq. Qed.

Lemma open_node_next pending produced x t :
  open_node pending produced x t !! "next_precursor" = Some t.
Proof. unfold open_node. by rewrite lookup_insert_eq. Qed.

Lemma open_node_curr pending produced x t :
  open_node pending produced x t !! "curr_precursor" = Some x.
Proof. unfold open_node. by rewrite lookup_insert_ne, lookup_insert_eq. Qed.

(** ** Facts about the queries: each reads one attribute and writes none *)

Lemma len_run self p :
  self !! "precursors_to_expand" = Some p →
  Node.__len__ self = (n ← Py.len p; Ok (n, self)).
Proof.
  intros H. unfold Node.__len__, mbind at 1, M_bind, getattr. rewrite H.
  unfold builtin, mbind, result_bind. by destruct (Py.len p).
Qed.

Lemma is_solved_run self p :
  self !! "precursors_to_expand" = Some p →
  Node.is_solved self = (n ← Py.len p; Ok (n =? 0, self)).
Proof.
  intros H. unfold Node.is_solved, mbind at 1, M_bind, getattr. rewrite H.
  unfold builtin, mbind, M_bind, result_bind. by destruct (Py.len p).
Qed.

Lemma repr_run self a b :
  self !! "new_precursors" = Some a →
  self !! "precursors_to_expand" = Some b →
  Node.__repr__ self =
    Ok ("New precursors: " +:+ Py.str a +:+ Py.newline
        +:+ "Precursors to expand: " +:+ Py.str b +:+ Py.newline, self).
Proof.
  intros Ha Hb. unfold Node.__repr__, mbind, M_bind, getattr.
  by rewrite Ha, Hb.
Qed.

Lemma attr_run name self v : self !! name = Some v → Node.attr name self = Ok v.
Proof. intros H. unfold Node.attr, getattr. by rewrite H. Qed.

Lemma attr_missing name self :
  self !! name = None → Node.attr name self = Raise AttributeError.
Proof. intros H. unfold Node.attr, getattr. by rewrite H. Qed.

(** None of the three queries writes an attribute, on any object. *)
Lemma len_frame (o o' : obj) n : Node.__len__ o = Ok (n, o') → o' = o.
Proof.
  unfold Node.__len__, mbind, M_bind, getattr, builtin.
  destruct (o !! "precursors_to_expand") as [p|]; [|done].
  destruct (Py.len p); [|done]. by intros [= _ <-].
Qed.

Lemma is_solved_frame (o o' : obj) b : Node.is_solved o = Ok (b, o') → o' = o.
Proof.
  unfold Node.is_solved, mbind, M_bind, getattr, builtin.
  destruct (o !! "precursors_to_expand") as [p|]; [|done].
  destruct (Py.len p); [|done]. by intros [= _ <-].
Qed.

Lemma repr_frame (o o' : obj) s : Node.__repr__ o = Ok (s, o') → o' = o.
Proof.
  unfold Node.__repr__, mbind, M_bind, getattr.
  destruct (o !! "new_precursors") as [a|]; [|done].
  destruct (o !! "precursors_to_expand") as [b|]; [|done].
  by intros [= _ <-].
Qed.


(** ** Worked instances, constructed *)

Lemma new_root : Node.new target (PyTuple []) = Ok root_node.
Proof. apply new_tuple_cons. Qed.

Lemma new_leaf :
  Node.new (PyTuple []) (PyTuple [PyStr "A"; PyStr "B"]) = Ok leaf_node.
Proof. apply new_tuple_nil. Qed.

Lemma new_inner : Node.new route (PyTuple [PyStr "X"]) = Ok inner_node.
Proof. apply new_tuple_cons. Qed.

Example inner_node_repr :
  value (Node.__repr__ inner_node) =
    Ok ("New precursors: ('X',)" +:+ Py.newline +:+
        "Precursors to expand: ('M1', 'M2', 'M3')" +:+ Py.newline).
Proof. reflexivity. Qed.

Example leaf_node_repr :
  value (Node.__repr__ leaf_node) =
    Ok ("New precursors: ('A', 'B')" +:+ Py.newline +:+
        "Precursors to expand: ()" +:+ Py.newline).
Proof. reflexivity. Qed.

Example root_node_queries :
  value (Node.__len__ root_node) = Ok 1 ∧
  value (Node.is_solved root_node) = Ok false ∧
  Node.attr "curr_precursor" root_node = Ok (PyStr "Target") ∧
  Node.attr "next_precursor" root_node = Ok (PyTuple []).
Proof. by vm_compute. Qed.

Example leaf_node_queries :
  value (Node.__len__ leaf_node) = Ok 0 ∧
  value (Node.is_solved leaf_node) = Ok true ∧
  Node.attr "new_precursors" leaf_node = Ok (PyTuple [PyStr "A"; PyStr "B"]).
Proof. by vm_compute. Qed.

Example str_pending :
  Node.new (PyStr "CCO") PyNone =
    Ok (open_node (PyStr "CCO") PyNone (PyStr "C") (PyStr "CO")).
Proof. by rewrite new_unfold. Qed.

Example int_pending : Node.new (PyInt 3) PyNone = Raise TypeError.
Proof. by rewrite new_unfold. Qed.

(** ** The specification's claims *)

(** C1. For every non-empty pending tuple [P] and every produced value,
    [Node(P, produced)] returns an instance whose [curr_precursor] is
    [P[0]] and whose [next_precursor] is [P[1:]]; the one-element tuple of
    [curr_precursor] concatenated with [next_precursor] is [P] again, in
    the same order. *)
Theorem init_splits_pending (P : list pyval) (produced : pyval) :
  P ≠ [] →
  ∃ self curr next,
    Node.new (PyTuple P) produced = Ok self ∧
    Node.attr "precursors_to_expand" self = Ok (PyTuple P) ∧
    Node.attr "curr_precursor" self = Ok curr ∧
    Node.attr "next_precursor" self = Ok (PyTuple next) ∧
    Py.getitem (PyTuple P) 0 = Ok curr ∧
    Py.slice_from (PyTuple P) 1 = Ok (PyTuple next) ∧
    Py.add (PyTuple [curr]) (PyTuple next) = Ok (PyTuple P) ∧
    curr :: next = P.
Proof.
  destruct P as [| x items]; [done | intros _].
  exists (open_node (PyTuple (x :: items)) produced x (PyTuple items)), x, items.
  split; [apply new_tuple_cons |].
  split.
  { apply attr_run. unfold open_node.
    rewrite !lookup_insert_ne by done. apply inputs_pending. }
  split; [apply attr_run, open_node_curr |].
  split; [apply attr_run, open_node_next |].
  split; [apply getitem_head |].
  split; [apply slice_tail | done].
Qed.

Lemma init_splits_pending_witness :
  [PyStr "M1"; PyStr "M2"; PyStr "M3"] ≠ [] ∧
  ∃ self curr next,
    Node.new route (PyTuple [PyStr "X"]) = Ok self ∧
    Node.attr "precursors_to_expand" self = Ok route ∧
    Node.attr "curr_precursor" self = Ok curr ∧
    Node.attr "next_precursor" self = Ok (PyTuple next) ∧
    Py.getitem route 0 = Ok curr ∧
    Py.slice_from route 1 = Ok (PyTuple next) ∧
    Py.add (PyTuple [curr]) (PyTuple next) = Ok route ∧
    curr :: next = [PyStr "M1"; PyStr "M2"; PyStr "M3"].
Proof.
  split; [done |].
  apply (init_splits_pending [PyStr "M1"; PyStr "M2"; PyStr "M3"]). done.
Defined.

(** C2. On every instance a constructor call returned, [is_solved()]
    returns without raising and without writing to the instance; its result
    is [True] exactly when [precursors_to_expand] has length 0 (for a
    tuple: is the empty tuple); and any object holding the same
    [precursors_to_expand] gets the same answer, whatever its other
    attributes are. *)
Theorem is_solved_iff_empty (pending produced : pyval) (self : obj) :
  Node.new pending produced = Ok self →
  ∃ b,
    Node.is_solved self = Ok (b, self) ∧
    Node.attr "precursors_to_expand" self = Ok pending ∧
    (b = true ↔ Py.len pending = Ok 0) ∧
    (∀ items, pending = PyTuple items → (b = true ↔ items = [])) ∧
    (∀ other : obj,
       other !! "precursors_to_expand" = self !! "precursors_to_expand" →
       value (Node.is_solved other) = Ok b).
Proof.
  intros Hnew%new_Ok_inv.
  pose proof (constructed_pending _ _ _ Hnew) as Hp.
  assert (∃ n, Py.len pending = Ok n) as [n Hlen] by (destruct Hnew; eauto).
  exists (n =? 0). split.
  { rewrite (is_solved_run _ _ Hp), Hlen. done. }
  split; [by apply attr_run |].
  assert (Hb : (n =? 0) = true ↔ Py.len pending = Ok 0).
  { rewrite Hlen, Z.eqb_eq. split; [by intros -> | by intros [= ->]]. }
  split; [done |]. split.
  - intros items ->. by rewrite Hb, len_tuple_0.
  - intros other Hother. rewrite Hp in Hother.
    rewrite (is_solved_run _ _ Hother), Hlen. done.
Qed.

Lemma is_solved_iff_empty_witness :
  Node.new target (PyTuple []) = Ok root_node ∧
  ∃ b,
    Node.is_solved root_node = Ok (b, root_node) ∧
    Node.attr "precursors_to_expand" root_node = Ok target ∧
    (b = true ↔ Py.len target = Ok 0) ∧
    (∀ items, target = PyTuple items → (b = true ↔ items = [])) ∧
    (∀ other : obj,
       other !! "precursors_to_expand" = root_node !! "precursors_to_expand" →
       value (Node.is_solved other) = Ok b).
Proof.
  split; [apply new_root |].
  apply (is_solved_iff_empty target (PyTuple []) root_node). apply new_root.
Defined.

(** C3. A constructor call whose pending argument is absent (omitted, or
    passed as [None]) raises, because [len] of [None] raises: the
    [TypeError] the specification names MissingInputError.  An absent
    produced argument raises nothing.  No constructor call raises anything
    else, and one raises only when [len] of the pending argument does. *)
Theorem init_missing_pending :
  (∀ produced, Node.call None produced = Raise TypeError) ∧
  (∀ produced, Node.call (Some PyNone) produced = Raise TypeError) ∧
  Py.len PyNone = Raise TypeError ∧
  (∀ P, ∃ self, Node.call (Some (PyTuple P)) None = Ok self) ∧
  (∀ P, ∃ self, Node.call (Some (PyTuple P)) (Some PyNone) = Ok self) ∧
  (∀ pending produced e,
     Node.call pending produced = Raise e →
     e = TypeError ∧ Py.len (default PyNone pending) = Raise TypeError).
Proof.
  assert (Hnone : ∀ produced, Node.new PyNone produced = Raise TypeError)
    by (intros; by rewrite new_unfold).
  assert (Hsome : ∀ P produced, ∃ self, Node.new (PyTuple P) produced = Ok self).
  { intros [| x items] produced; eexists;
      [apply new_tuple_nil | apply new_tuple_cons]. }
  split; [intros; apply Hnone |]. split; [intros; apply Hnone |].
  split; [done |]. split; [intros; apply Hsome |].
  split; [intros; apply Hsome |].
  intros pending produced e. apply new_raises.
Qed.

(** C4, as the code has it. On every instance a constructor call returned,
    [len(node)], [is_solved()] and the reads of [curr_precursor] and
    [new_precursors] return without raising; the read of [next_precursor]
    returns when the pending sequence was non-empty, and raises
    [AttributeError] when it was empty, since [__init__] then never
    assigns that attribute. *)
Theorem queries_total (pending produced : pyval) (self : obj) :
  Node.new pending produced = Ok self →
  ∃ n b curr,
    Node.__len__ self = Ok (n, self) ∧
    Node.is_solved self = Ok (b, self) ∧
    Node.attr "curr_precursor" self = Ok curr ∧
    Node.attr "new_precursors" self = Ok produced ∧
    (0 < n → ∃ next, Node.attr "next_precursor" self = Ok next) ∧
    (n = 0 → Node.attr "next_precursor" self = Raise AttributeError).
Proof.
  intros Hnew%new_Ok_inv.
  pose proof (constructed_pending _ _ _ Hnew) as Hp.
  pose proof (constructed_produced _ _ _ Hnew) as Hq.
  destruct Hnew as [Hlen | n x t Hlen Hn Hx Ht].
  - exists 0, true, Py.tuple.
    rewrite (len_run _ _ Hp), (is_solved_run _ _ Hp), Hlen.
    split_and!; [done | done | | by apply attr_run | lia |].
    + apply attr_run, solved_node_curr.
    + intros _. apply attr_missing, solved_node_next.
  - exists n, (n =? 0), x.
    rewrite (len_run _ _ Hp), (is_solved_run _ _ Hp), Hlen.
    split_and!; [done | done | | by apply attr_run | | lia].
    + apply attr_run, open_node_curr.
    + intros _. exists t. apply attr_run, open_node_next.
Qed.

Lemma queries_total_witness :
  Node.new route (PyTuple [PyStr "X"]) = Ok inner_node ∧
  ∃ n b curr,
    Node.__len__ inner_node = Ok (n, inner_node) ∧
    Node.is_solved inner_node = Ok (b, inner_node) ∧
    Node.attr "curr_precursor" inner_node = Ok curr ∧
    Node.attr "new_precursors" inner_node = Ok (PyTuple [PyStr "X"]) ∧
    (0 < n → ∃ next, Node.attr "next_precursor" inner_node = Ok next) ∧
    (n = 0 → Node.attr "next_precursor" inner_node = Raise AttributeError).
Proof.
  split; [apply new_inner |].
  apply (queries_total route (PyTuple [PyStr "X"]) inner_node). apply new_inner.
Defined.

(** C4, as the specification states it, fails on [Node((), ("A", "B"))]:
    the call returns an instance, and reading its [next_precursor]
    raises. *)
Lemma next_precursor_read_raises :
  Node.new (PyTuple []) (PyTuple [PyStr "A"; PyStr "B"]) = Ok leaf_node ∧
  Node.attr "next_precursor" leaf_node = Raise AttributeError.
Proof. split; [apply new_leaf | apply attr_missing, solved_node_next]. Qed.

(** C5. On every instance a constructor call returned, [len(node)] returns
    the length of [precursors_to_expand] and leaves the instance as it
    was; for a pending tuple [P] that is the number of its elements, 0 for
    the empty tuple. *)
Theorem len_counts_pending (pending produced : pyval) (self : obj) :
  Node.new pending produced = Ok self →
  ∃ n,
    Node.__len__ self = Ok (n, self) ∧
    Node.attr "precursors_to_expand" self = Ok pending ∧
    Py.len pending = Ok n ∧
    (∀ P, pending = PyTuple P → n = Z.of_nat (length P)) ∧
    (pending = PyTuple [] → n = 0).
Proof.
  intros Hnew%new_Ok_inv.
  pose proof (constructed_pending _ _ _ Hnew) as Hp.
  assert (∃ n, Py.len pending = Ok n) as [n Hlen] by (destruct Hnew; eauto).
  exists n. rewrite (len_run _ _ Hp), Hlen.
  split; [done |]. split; [by apply attr_run |]. split; [done |].
  split; intros; subst pending; by injection Hlen.
Qed.

Lemma len_counts_pending_witness :
  Node.new route (PyTuple [PyStr "X"]) = Ok inner_node ∧
  ∃ n,
    Node.__len__ inner_node = Ok (n, inner_node) ∧
    Node.attr "precursors_to_expand" inner_node = Ok route ∧
    Py.len route = Ok n ∧
    (∀ P, route = PyTuple P → n = Z.of_nat (length P)) ∧
    (route = PyTuple [] → n = 0).
Proof.
  split; [apply new_inner |].
  apply (len_counts_pending route (PyTuple [PyStr "X"]) inner_node).
  apply new_inner.
Defined.

(** C6. Two instances constructed from the same pending value and any two
    produced values give the same [is_solved()] result and the same
    [len] result. *)
Theorem queries_ignore_produced
    (pending produced1 produced2 : pyval) (self1 self2 : obj) :
  Node.new pending produced1 = Ok self1 →
  Node.new pending produced2 = Ok self2 →
  ∃ b n,
    value (Node.is_solved self1) = Ok b ∧
    value (Node.is_solved self2) = Ok b ∧
    value (Node.__len__ self1) = Ok n ∧
    value (Node.__len__ self2) = Ok n.
Proof.
  intros H1%new_Ok_inv H2%new_Ok_inv.
  pose proof (constructed_pending _ _ _ H1) as Hp1.
  pose proof (constructed_pending _ _ _ H2) as Hp2.
  assert (∃ n, Py.len pending = Ok n) as [n Hlen] by (destruct H1; eauto).
  exists (n =? 0), n.
  rewrite (is_solved_run _ _ Hp1), (is_solved_run _ _ Hp2).
  rewrite (len_run _ _ Hp1), (len_run _ _ Hp2), Hlen. done.
Qed.

Lemma queries_ignore_produced_witness :
  Node.new route (PyTuple [PyStr "X"]) = Ok inner_node ∧
  Node.new route PyNone =
    Ok (open_node route PyNone (PyStr "M1") (PyTuple [PyStr "M2"; PyStr "M3"])) ∧
  ∃ b n,
    value (Node.is_solved inner_node) = Ok b ∧
    value (Node.is_solved
             (open_node route PyNone (PyStr "M1")
                (PyTuple [PyStr "M2"; PyStr "M3"]))) = Ok b ∧
    value (Node.__len__ inner_node) = Ok n ∧
    value (Node.__len__
             (open_node route PyNone (PyStr "M1")
                (PyTuple [PyStr "M2"; PyStr "M3"]))) = Ok n.
Proof.
  split; [apply new_inner |]. split; [apply new_tuple_cons |].
  apply (queries_ignore_produced route (PyTuple [PyStr "X"]) PyNone);
    [apply new_inner | apply new_tuple_cons].
Defined.

(** C7. [Node((), produced)] returns an instance whose [curr_precursor] is
    the empty tuple [tuple()] (a tuple like the pending argument, not an
    element of it: there is none) and which has no [next_precursor]
    attribute; [is_solved()] is [True] and [len] is 0 on it. *)
Theorem init_empty_pending (produced : pyval) :
  ∃ self,
    Node.new (PyTuple []) produced = Ok self ∧
    Node.attr "curr_precursor" self = Ok (PyTuple []) ∧
    Py.getitem (PyTuple []) 0 = Raise IndexError ∧
    self !! "next_precursor" = None ∧
    Node.is_solved self = Ok (true, self) ∧
    Node.__len__ self = Ok (0, self).
Proof.
  exists (solved_node (PyTuple []) produced).
  assert (Hp : solved_node (PyTuple []) produced !! "precursors_to_expand"
               = Some (PyTuple [])).
  { unfold solved_node. rewrite lookup_insert_ne by done. apply inputs_pending. }
  split; [apply new_tuple_nil |].
  split; [apply attr_run, solved_node_curr |].
  split; [done |].
  split; [apply solved_node_next |].
  by rewrite (is_solved_run _ _ Hp), (len_run _ _ Hp).
Qed.

(** C8. On every instance a constructor call returned, [is_solved()] is
    [True] exactly when [len] is 0 and [False] exactly when [len] is
    positive. *)
Theorem is_solved_iff_len_0 (pending produced : pyval) (self : obj) :
  Node.new pending produced = Ok self →
  ∃ b n,
    Node.is_solved self = Ok (b, self) ∧
    Node.__len__ self = Ok (n, self) ∧
    (b = true ↔ n = 0) ∧
    (b = false ↔ 0 < n).
Proof.
  intros Hnew%new_Ok_inv.
  pose proof (constructed_pending _ _ _ Hnew) as Hp.
  assert (∃ n, Py.len pending = Ok n) as [n Hlen] by (destruct Hnew; eauto).
  pose proof (len_nonneg _ _ Hlen) as Hge.
  exists (n =? 0), n.
  rewrite (is_solved_run _ _ Hp), (len_run _ _ Hp), Hlen.
  split; [done |]. split; [done |].
  rewrite Z.eqb_eq, Z.eqb_neq. lia.
Qed.

Lemma is_solved_iff_len_0_witness :
  Node.new target (PyTuple []) = Ok root_node ∧
  ∃ b n,
    Node.is_solved root_node = Ok (b, root_node) ∧
    Node.__len__ root_node = Ok (n, root_node) ∧
    (b = true ↔ n = 0) ∧
    (b = false ↔ 0 < n).
Proof.
  split; [apply new_root |].
  apply (is_solved_iff_len_0 target (PyTuple []) root_node). apply new_root.
Defined.

(** C9. On every instance a constructor call returned, [repr(node)] called
    twice returns the same text both times and leaves the instance, hence
    each of its attributes, as it was; [len(node)] and [is_solved()] leave
    it as it was too, and no query writes an attribute of any object it
    is run on. *)
Theorem repr_twice_same (pending produced : pyval) (self : obj) :
  Node.new pending produced = Ok self →
  ∃ s n b,
    Node.__repr__ self = Ok (s, self) ∧
    repr_twice self = Ok ((s, s), self) ∧
    s = "New precursors: " +:+ Py.str produced +:+ Py.newline
        +:+ "Precursors to expand: " +:+ Py.str pending +:+ Py.newline ∧
    Node.__len__ self = Ok (n, self) ∧
    Node.is_solved self = Ok (b, self) ∧
    (∀ (o o' : obj) r, Node.__repr__ o = Ok (r, o') → o' = o) ∧
    (∀ (o o' : obj) r, Node.__len__ o = Ok (r, o') → o' = o) ∧
    (∀ (o o' : obj) r, Node.is_solved o = Ok (r, o') → o' = o).
Proof.
  intros Hnew%new_Ok_inv.
  pose proof (constructed_pending _ _ _ Hnew) as Hp.
  pose proof (constructed_produced _ _ _ Hnew) as Hq.
  assert (∃ n, Py.len pending = Ok n) as [n Hlen] by (destruct Hnew; eauto).
  eexists _, n, (n =? 0).
  split; [apply (repr_run _ _ _ Hq Hp) |].
  split.
  { unfold repr_twice, mbind, M_bind.
    rewrite (repr_run _ _ _ Hq Hp). cbv beta iota.
    by rewrite (repr_run _ _ _ Hq Hp). }
  split; [done |].
  rewrite (len_run _ _ Hp), (is_solved_run _ _ Hp), Hlen.
  split; [done |]. split; [done |].
  split; [intros o o' r; apply repr_frame |].
  split; [intros o o' r; apply len_frame | intros o o' r; apply is_solved_frame].
Qed.

Lemma repr_twice_same_witness :
  Node.new route (PyTuple [PyStr "X"]) = Ok inner_node ∧
  ∃ s n b,
    Node.__repr__ inner_node = Ok (s, inner_node) ∧
    repr_twice inner_node = Ok ((s, s), inner_node) ∧
    s = "New precursors: " +:+ Py.str (PyTuple [PyStr "X"]) +:+ Py.newline
        +:+ "Precursors to expand: " +:+ Py.str route +:+ Py.newline ∧
    Node.__len__ inner_node = Ok (n, inner_node) ∧
    Node.is_solved inner_node = Ok (b, inner_node) ∧
    (∀ (o o' : obj) r, Node.__repr__ o = Ok (r, o') → o' = o) ∧
    (∀ (o o' : obj) r, Node.__len__ o = Ok (r, o') → o' = o) ∧
    (∀ (o o' : obj) r, Node.is_solved o = Ok (r, o') → o' = o).
Proof.
  split; [apply new_inner |].
  apply (repr_twice_same route (PyTuple [PyStr "X"]) inner_node).
  apply new_inner.
Defined.

(** C10. [Node(P)] with the produced argument omitted returns an instance
    whose [new_precursors] is [None], which is not the empty tuple; and
    whatever value is passed as the produced argument, the call returns an
    instance whose [new_precursors] is that value. *)
Theorem init_keeps_produced (P : list pyval) :
  (∃ self,
     Node.call (Some (PyTuple P)) None = Ok self ∧
     Node.attr "new_precursors" self = Ok PyNone) ∧
  PyNone ≠ Py.tuple ∧
  (∀ produced, ∃ self,
     Node.call (Some (PyTuple P)) (Some produced) = Ok self ∧
     Node.attr "new_precursors" self = Ok produced).
Proof.
  assert (H : ∀ produced, ∃ self,
             Node.new (PyTuple P) produced = Ok self ∧
             Node.attr "new_precursors" self = Ok produced).
  { intros produced.
    assert (∃ self, Node.new (PyTuple P) produced = Ok self) as [self Hnew].
    { destruct P; eexists; [apply new_tuple_nil | apply new_tuple_cons]. }
    exists self. split; [done |].
    by apply attr_run, (constructed_produced (PyTuple P)), new_Ok_inv. }
  split; [apply H |]. split; [done | apply H].
Qed.

(** ** Further properties of the class *)

(** [__init__] on any instance, new or not. *)
Lemma init_unfold pending produced (o : obj) :
  Node.__init__ pending produced o =
    n ← Py.len pending;
    let o2 := <["new_precursors" := produced]>
                (<["precursors_to_expand" := pending]> o) in
    if n =? 0 then Ok ((), <["curr_precursor" := Py.tuple]> o2)
    else
      x ← Py.getitem pending 0;
      t ← Py.slice_from pending 1;
      Ok ((), <["next_precursor" := t]> (<["curr_precursor" := x]> o2)).
Proof.
  unfold Node.__init__, mbind, M_bind, result_bind, setattr, getattr.
  rewrite lookup_insert_ne by done. rewrite lookup_insert_eq.
  unfold builtin. destruct (Py.len pending) as [n|e]; [|done].
  cbv zeta. destruct (n =? 0); [done|].
  rewrite lookup_insert_ne by done. rewrite lookup_insert_eq.
  destruct (Py.getitem pending 0) as [x|e]; [|done].
  rewrite !lookup_insert_ne by done. rewrite lookup_insert_eq.
  by destruct (Py.slice_from pending 1).
Qed.

(** [p[1:]] is one shorter than a non-empty [p]. *)
Lemma slice_len v n t :
  Py.len v = Ok n → 0 < n → Py.slice_from v 1 = Ok t → Py.len t = Ok (n - 1).
Proof.
  intros Hlen Hn. destruct v as [| z | s | items]; try done.
  - destruct s as [| c s]; injection Hlen as <-; [simpl in Hn; lia |].
    unfold Py.slice_from. rewrite slice_start_1 by (simpl; lia).
    unfold Py.str_items.
    change (drop 1 (String.list_ascii_of_string (String c s)))
      with (String.list_ascii_of_string s).
    rewrite String.string_of_list_ascii_of_string.
    intros [= <-]. simpl. f_equal. lia.
  - destruct items as [| x items]; injection Hlen as <-; [simpl in Hn; lia |].
    rewrite slice_tail. intros [= <-]. simpl. f_equal. lia.
Qed.

(** The constructor returns an instance for every value that has a length. *)
Lemma new_sized v n produced :
  Py.len v = Ok n → ∃ self, Node.new v produced = Ok self.
Proof.
  intros Hlen. rewrite new_unfold, Hlen. unfold mbind, result_bind.
  destruct (n =? 0) eqn:Hn; [by eexists |]. apply Z.eqb_neq in Hn.
  destruct (nonempty_splits _ _ Hlen Hn) as (x & t & -> & ->). by eexists.
Qed.

(** X1. An instance the constructor returned has exactly the attributes
    [precursors_to_expand], [new_precursors] and [curr_precursor] when
    [is_solved()] is [True], and these three and [next_precursor] when it is
    [False]: it has a [next_precursor] exactly when it is not solved. *)
Theorem instance_attributes (pending produced : pyval) (self : obj) :
  Node.new pending produced = Ok self →
  ∃ b,
    value (Node.is_solved self) = Ok b ∧
    dom self =
      (if b
       then {["precursors_to_expand"; "new_precursors"; "curr_precursor"]}
       else {["precursors_to_expand"; "new_precursors"; "curr_precursor";
              "next_precursor"]} : gset string) ∧
    (is_Some (self !! "next_precursor") ↔ b = false).
Proof.
  intros Hnew%new_Ok_inv.
  pose proof (constructed_pending _ _ _ Hnew) as Hp.
  destruct Hnew as [Hlen | n x t Hlen Hn Hx Ht].
  - exists true. rewrite (is_solved_run _ _ Hp), Hlen.
    split; [done |]. split.
    + unfold solved_node, inputs. rewrite !dom_insert_L, dom_empty_L.
      set_solver.
    + rewrite solved_node_next. split; [by intros [? ?] | done].
  - exists false. rewrite (is_solved_run _ _ Hp), Hlen.
    split.
    { simpl. by replace (n =? 0) with false by (symmetry; apply Z.eqb_neq; lia). }
    split.
    + unfold open_node, inputs. rewrite !dom_insert_L, dom_empty_L.
      set_solver.
    + rewrite open_node_next. split; [done | by eexists].
Qed.

Lemma instance_attributes_witness :
  Node.new route (PyTuple [PyStr "X"]) = Ok inner_node ∧
  ∃ b,
    value (Node.is_solved inner_node) = Ok b ∧
    dom inner_node =
      (if b
       then {["precursors_to_expand"; "new_precursors"; "curr_precursor"]}
       else {["precursors_to_expand"; "new_precursors"; "curr_precursor";
              "next_precursor"]} : gset string) ∧
    (is_Some (inner_node !! "next_precursor") ↔ b = false).
Proof.
  split; [apply new_inner |].
  apply (instance_attributes route (PyTuple [PyStr "X"]) inner_node).
  apply new_inner.
Defined.

(** X2. The constructor is injective: two calls that return the same
    instance were given the same pending value and the same produced
    value. *)
Theorem new_injective (pending1 produced1 pending2 produced2 : pyval)
    (self : obj) :
  Node.new pending1 produced1 = Ok self →
  Node.new pending2 produced2 = Ok self →
  pending1 = pending2 ∧ produced1 = produced2.
Proof.
  intros H1%new_Ok_inv H2%new_Ok_inv.
  pose proof (constructed_pending _ _ _ H1) as Hp1.
  pose proof (constructed_pending _ _ _ H2) as Hp2.
  pose proof (constructed_produced _ _ _ H1) as Hq1.
  pose proof (constructed_produced _ _ _ H2) as Hq2.
  split; congruence.
Qed.

Lemma new_injective_witness :
  Node.new target (PyTuple []) = Ok root_node ∧
  Node.new (PyTuple [PyStr "Target"]) Py.tuple = Ok root_node ∧
  target = PyTuple [PyStr "Target"] ∧ PyTuple [] = Py.tuple.
Proof.
  split; [apply new_root |]. split; [apply new_root |].
  apply (new_injective target (PyTuple []) (PyTuple [PyStr "Target"]) Py.tuple
           root_node); apply new_root.
Defined.

(** X3. Whenever an instance the constructor returned has a
    [next_precursor], the constructor called on that value returns an
    instance too, and its [len] is one less than the [len] of the first. *)
Theorem next_precursor_shrinks
    (pending produced produced' next : pyval) (self : obj) :
  Node.new pending produced = Ok self →
  Node.attr "next_precursor" self = Ok next →
  ∃ self' n,
    Node.new next produced' = Ok self' ∧
    Node.attr "precursors_to_expand" self' = Ok next ∧
    value (Node.__len__ self) = Ok n ∧
    value (Node.__len__ self') = Ok (n - 1).
Proof.
  intros Hnew%new_Ok_inv Hnext.
  pose proof (constructed_pending _ _ _ Hnew) as Hp.
  destruct Hnew as [Hlen | n x t Hlen Hn Hx Ht].
  - by rewrite (attr_missing _ _ (solved_node_next _ _)) in Hnext.
  - rewrite (attr_run _ _ _ (open_node_next _ _ _ _)) in Hnext.
    injection Hnext as <-.
    pose proof (slice_len _ _ _ Hlen Hn Ht) as Hlen'.
    destruct (new_sized t _ produced' Hlen') as [self' Hnew'].
    pose proof (constructed_pending _ _ _ (new_Ok_inv _ _ _ Hnew')) as Hp'.
    exists self', n. split; [done |]. split; [by apply attr_run |].
    by rewrite (len_run _ _ Hp), (len_run _ _ Hp'), Hlen, Hlen'.
Qed.

Lemma next_precursor_shrinks_witness :
  Node.new route (PyTuple [PyStr "X"]) = Ok inner_node ∧
  Node.attr "next_precursor" inner_node =
    Ok (PyTuple [PyStr "M2"; PyStr "M3"]) ∧
  ∃ self' n,
    Node.new (PyTuple [PyStr "M2"; PyStr "M3"]) PyNone = Ok self' ∧
    Node.attr "precursors_to_expand" self' =
      Ok (PyTuple [PyStr "M2"; PyStr "M3"]) ∧
    value (Node.__len__ inner_node) = Ok n ∧
    value (Node.__len__ self') = Ok (n - 1).
Proof.
  assert (H : Node.attr "next_precursor" inner_node =
                Ok (PyTuple [PyStr "M2"; PyStr "M3"]))
    by apply attr_run, open_node_next.
  split; [apply new_inner |]. split; [exact H |].
  apply (next_precursor_shrinks route (PyTuple [PyStr "X"]) PyNone
           (PyTuple [PyStr "M2"; PyStr "M3"]) inner_node);
    [apply new_inner | exact H].
Defined.

Lemma getitem_second x y items :
  Py.getitem (PyTuple (x :: y :: items)) 1 = Ok y.
Proof.
  unfold Py.getitem, Py.index.
  replace (1 <? 0) with false by done. replace (0 <=? 1) with true by done.
  by replace (1 <? Z.of_nat (length (x :: y :: items))) with true
    by (symmetry; apply Z.ltb_lt; simpl; lia).
Qed.

(** X4. For a pending tuple with at least two elements, the instance built
    from the [next_precursor] of the first instance has the second element,
    [P[1]], as its [curr_precursor] and the elements after it as its
    [next_precursor]. *)
Theorem second_becomes_current
    (x y : pyval) (rest : list pyval) (produced produced' : pyval) :
  ∃ self next self',
    Node.new (PyTuple (x :: y :: rest)) produced = Ok self ∧
    Node.attr "curr_precursor" self = Ok x ∧
    Node.attr "next_precursor" self = Ok next ∧
    Node.new next produced' = Ok self' ∧
    Node.attr "curr_precursor" self' = Ok y ∧
    Py.getitem (PyTuple (x :: y :: rest)) 1 = Ok y ∧
    Node.attr "next_precursor" self' = Ok (PyTuple rest).
Proof.
  eexists _, _, _.
  split; [apply new_tuple_cons |].
  split; [apply attr_run, open_node_curr |].
  split; [apply attr_run, open_node_next |].
  split; [apply new_tuple_cons |].
  split; [apply attr_run, open_node_curr |].
  split; [apply getitem_second | apply attr_run, open_node_next].
Qed.

(** X5. A [str] passed as the pending value is taken apart like a tuple:
    for a non-empty string, [curr_precursor] is its first character,
    [next_precursor] the rest of the string, and the instance is not
    solved; for the empty string the instance is solved, has no
    [next_precursor], and its [curr_precursor] is the empty tuple, not the
    empty string. *)
Theorem str_pending_splits (s : string) (produced : pyval) :
  ∃ self,
    Node.new (PyStr s) produced = Ok self ∧
    match s with
    | EmptyString =>
        Node.attr "curr_precursor" self = Ok (PyTuple []) ∧
        self !! "next_precursor" = None ∧
        value (Node.is_solved self) = Ok true
    | String c r =>
        Node.attr "curr_precursor" self = Ok (PyStr (String c EmptyString)) ∧
        Node.attr "next_precursor" self = Ok (PyStr r) ∧
        value (Node.is_solved self) = Ok false
    end.
Proof.
  destruct s as [| c r].
  - exists (solved_node (PyStr EmptyString) produced).
    split; [by rewrite new_unfold |].
    split; [apply attr_run, solved_node_curr |].
    split; [apply solved_node_next |].
    rewrite (is_solved_run _ (PyStr EmptyString)); [done |].
    apply (constructed_pending _ produced). by constructor.
  - assert (Hlen : Py.len (PyStr (String c r))
                   = Ok (Z.of_nat (S (String.length r)))) by done.
    assert (Hx : Py.getitem (PyStr (String c r)) 0
                 = Ok (PyStr (String c EmptyString))).
    { unfold Py.getitem. rewrite index_0; [done | simpl; lia]. }
    assert (Ht : Py.slice_from (PyStr (String c r)) 1 = Ok (PyStr r)).
    { unfold Py.slice_from. rewrite slice_start_1 by (simpl; lia).
      unfold Py.str_items.
      change (drop 1 (String.list_ascii_of_string (String c r)))
        with (String.list_ascii_of_string r).
      by rewrite String.string_of_list_ascii_of_string. }
    exists (open_node (PyStr (String c r)) produced
              (PyStr (String c EmptyString)) (PyStr r)).
    split.
    { rewrite new_unfold, Hlen. unfold mbind at 1, result_bind at 1.
      replace (Z.of_nat (S (String.length r)) =? 0) with false
        by (symmetry; apply Z.eqb_neq; lia).
      by rewrite Hx, Ht. }
    split; [apply attr_run, open_node_curr |].
    split; [apply attr_run, open_node_next |].
    rewrite (is_solved_run _ (PyStr (String c r))), Hlen.
    + simpl. by replace (Z.of_nat (S (String.length r)) =? 0) with false
        by (symmetry; apply Z.eqb_neq; lia).
    + unfold open_node. rewrite !lookup_insert_ne by done. apply inputs_pending.
Qed.

(** X6. [__init__] run on any instance writes only the attributes
    [precursors_to_expand], [new_precursors], [curr_precursor] and
    [next_precursor]: every other attribute is afterwards what it was.
    With a pending value of length 0 it does not write [next_precursor]
    either, so one that was there before stays. *)
Theorem init_frame (pending produced : pyval) (o o' : obj) (name : string) :
  Node.__init__ pending produced o = Ok ((), o') →
  o' !! "precursors_to_expand" = Some pending ∧
  o' !! "new_precursors" = Some produced ∧
  (name ≠ "precursors_to_expand" → name ≠ "new_precursors" →
   name ≠ "curr_precursor" → name ≠ "next_precursor" →
   o' !! name = o !! name) ∧
  (Py.len pending = Ok 0 → o' !! "next_precursor" = o !! "next_precursor").
Proof.
  rewrite init_unfold. unfold mbind, result_bind.
  destruct (Py.len pending) as [n|] eqn:Hlen; [|done].
  cbv zeta. destruct (n =? 0) eqn:Hn.
  - intros [= <-]. split_and!.
    + rewrite !lookup_insert_ne by done. apply lookup_insert_eq.
    + rewrite lookup_insert_ne by done. apply lookup_insert_eq.
    + intros. by rewrite !lookup_insert_ne by done.
    + intros _. by rewrite !lookup_insert_ne by done.
  - destruct (Py.getitem pending 0) as [x|]; [|done].
    destruct (Py.slice_from pending 1) as [t|]; [|done].
    intros [= <-]. split_and!.
    + rewrite !lookup_insert_ne by done. apply lookup_insert_eq.
    + rewrite !lookup_insert_ne by done. apply lookup_insert_eq.
    + intros. by rewrite !lookup_insert_ne by done.
    + intros [= ->]. done.
Qed.

Lemma init_frame_witness :
  Node.__init__ Py.tuple PyNone
    (<["visits" := PyInt 3]> (<["next_precursor" := target]> ∅)) =
    Ok ((), <["curr_precursor" := Py.tuple]>
              (<["new_precursors" := PyNone]>
                 (<["precursors_to_expand" := Py.tuple]>
                    (<["visits" := PyInt 3]>
                       (<["next_precursor" := target]> ∅))))) ∧
  (<["curr_precursor" := Py.tuple]>
     (<["new_precursors" := PyNone]>
        (<["precursors_to_expand" := Py.tuple]>
           (<["visits" := PyInt 3]> (<["next_precursor" := target]> ∅))))
   : obj) !! "next_precursor" = Some target.
Proof.
  assert (H : Node.__init__ Py.tuple PyNone
                (<["visits" := PyInt 3]> (<["next_precursor" := target]> ∅)) =
              Ok ((), <["curr_precursor" := Py.tuple]>
                        (<["new_precursors" := PyNone]>
                           (<["precursors_to_expand" := Py.tuple]>
                              (<["visits" := PyInt 3]>
                                 (<["next_precursor" := target]> ∅))))))
    by (by rewrite init_unfold).
  split; [exact H |].
  destruct (init_frame _ _ _ _ "visits" H) as (_ & _ & _ & Hnext).
  rewrite Hnext by done.
  rewrite lookup_insert_ne by done. apply lookup_insert_eq.
Defined.

(** X7. When every element of the pending tuple is a string, the
    [curr_precursor] of the instance is the empty tuple exactly when
    [is_solved()] is [True].  (An element that is itself the empty tuple
    would break this: it becomes the [curr_precursor] of an unsolved
    instance.) *)
Theorem curr_marker_iff_solved
    (P : list pyval) (produced : pyval) (self : obj) :
  Forall (λ v, ∃ s, v = PyStr s) P →
  Node.new (PyTuple P) produced = Ok self →
  (Node.attr "curr_precursor" self = Ok Py.tuple ↔
   value (Node.is_solved self) = Ok true).
Proof.
  intros Hstr Hnew.
  pose proof (constructed_pending _ _ _ (new_Ok_inv _ _ _ Hnew)) as Hp.
  rewrite (is_solved_run _ _ Hp).
  destruct P as [| x items].
  - rewrite new_tuple_nil in Hnew. injection Hnew as <-.
    by rewrite (attr_run _ _ _ (solved_node_curr _ _)).
  - rewrite new_tuple_cons in Hnew. injection Hnew as <-.
    rewrite (attr_run _ _ _ (open_node_curr _ _ _ _)).
    apply Forall_cons_1 in Hstr as [[s ->] _].
    split; [done | by simpl].
Qed.

Lemma curr_marker_iff_solved_witness :
  Forall (λ v, ∃ s, v = PyStr s) [PyStr "Target"] ∧
  Node.new target (PyTuple []) = Ok root_node ∧
  (Node.attr "curr_precursor" root_node = Ok Py.tuple ↔
   value (Node.is_solved root_node) = Ok true).
Proof.
  assert (H : Forall (λ v, ∃ s, v = PyStr s) [PyStr "Target"])
    by (repeat constructor; by eexists).
  split; [exact H |]. split; [apply new_root |].
  apply (curr_marker_iff_solved [PyStr "Target"] (PyTuple []) root_node H).
  apply new_root.
Defined.

(** Length of a constructed instance, as [len(node)] and [is_solved()]
    report it. *)
Lemma constructed_len pending produced self :
  Node.new pending produced = Ok self →
  ∃ n, 0 ≤ n ∧ value (Node.__len__ self) = Ok n ∧
       value (Node.is_solved self) = Ok (n =? 0).
Proof.
  intros Hnew%new_Ok_inv.
  pose proof (constructed_pending _ _ _ Hnew) as Hp.
  assert (∃ n, Py.len pending = Ok n) as [n Hlen] by (destruct Hnew; eauto).
  exists n. rewrite (len_run _ _ Hp), (is_solved_run _ _ Hp), Hlen.
  split; [by eapply len_nonneg | done].
Qed.

Lemma follows_len pending produced self self' n :
  Node.new pending produced = Ok self →
  value (Node.__len__ self) = Ok n →
  follows self self' →
  0 < n ∧ value (Node.__len__ self') = Ok (n - 1).
Proof.
  intros Hnew Hn (next & produced' & Hnext & Hnew').
  pose proof (new_Ok_inv _ _ _ Hnew) as Hc.
  pose proof (constructed_pending _ _ _ Hc) as Hp.
  rewrite (len_run _ _ Hp) in Hn.
  destruct Hc as [Hlen | m x t Hlen Hm Hx Ht].
  - by rewrite (attr_missing _ _ (solved_node_next _ _)) in Hnext.
  - rewrite (attr_run _ _ _ (open_node_next _ _ _ _)) in Hnext.
    injection Hnext as <-. rewrite Hlen in Hn. injection Hn as <-.
    pose proof (slice_len _ _ _ Hlen Hm Ht) as Hlen'.
    pose proof (constructed_pending _ _ _ (new_Ok_inv _ _ _ Hnew')) as Hp'.
    split; [done |]. by rewrite (len_run _ _ Hp'), Hlen'.
Qed.

(** X8. Descending [k] times from an instance the constructor returned,
    each time building a node from the [next_precursor] of the last, ends
    on an instance whose [len] is the first [len] minus [k]; so [k] is at
    most the first [len], and after exactly that many descents the
    instance is solved. *)
Theorem descent_bounded
    (pending produced : pyval) (self self' : obj) (k : nat) :
  Node.new pending produced = Ok self →
  nsteps follows k self self' →
  ∃ n,
    value (Node.__len__ self) = Ok n ∧
    value (Node.__len__ self') = Ok (n - Z.of_nat k) ∧
    Z.of_nat k ≤ n ∧
    (Z.of_nat k = n → value (Node.is_solved self') = Ok true).
Proof.
  intros Hnew Hsteps. revert pending produced Hnew.
  induction Hsteps as [self | k self mid self' Hstep Hsteps IH];
    intros pending produced Hnew.
  - destruct (constructed_len _ _ _ Hnew) as (n & Hge & Hlen & Hsolved).
    exists n. split; [done |].
    split; [by replace (n - Z.of_nat 0) with n by lia |].
    split; [simpl; lia |].
    intros <-. by rewrite Hsolved.
  - destruct (constructed_len _ _ _ Hnew) as (n & Hge & Hlen & _).
    destruct (follows_len _ _ _ _ _ Hnew Hlen Hstep) as [Hpos Hmid].
    destruct Hstep as (next & produced' & _ & Hnew').
    destruct (IH _ _ Hnew') as (m & Hm & Hlen' & Hle & Hsolved).
    rewrite Hmid in Hm. injection Hm as <-.
    exists n. split; [done |].
    split; [by replace (n - Z.of_nat (S k)) with (n - 1 - Z.of_nat k) by lia |].
    split; [lia |].
    intros Hk. apply Hsolved. lia.
Qed.

Lemma descent_bounded_witness :
  Node.new target (PyTuple []) = Ok root_node ∧
  nsteps follows 1 root_node (solved_node (PyTuple []) PyNone) ∧
  ∃ n,
    value (Node.__len__ root_node) = Ok n ∧
    value (Node.__len__ (solved_node (PyTuple []) PyNone)) =
      Ok (n - Z.of_nat 1) ∧
    Z.of_nat 1 ≤ n ∧
    (Z.of_nat 1 = n →
     value (Node.is_solved (solved_node (PyTuple []) PyNone)) = Ok true).
Proof.
  assert (H : nsteps follows 1 root_node (solved_node (PyTuple []) PyNone)).
  { apply nsteps_once. exists (PyTuple []), PyNone.
    split; [apply attr_run, open_node_next | apply new_tuple_nil]. }
  split; [apply new_root |]. split; [exact H |].
  apply (descent_bounded target (PyTuple []) root_node _ 1 new_root H).
Defined.
